(** * nRF52840 ESB-to-USB-HID receiver: model of [src/main.c]

    The firmware has two callbacks.  [usb_status_cb] is called by the USB
    device stack and maintains the [configured] flag.
    [receiver_esb_event_handler] is called by the ESB radio driver; on a
    received packet it reads the payload into the static [rx_payload] and,
    depending on its length, on [hid_dev] and on [configured], writes HID
    reports on the interrupt IN endpoint.

    The C statics become the fields of one [state] record, every statement is
    a state transformer, and the two observable sinks (the HID endpoint and
    the log backend) are traces that statements append to. *)

From Stdlib Require Import ZArith List String Bool Lia.
Import ListNotations.
Open Scope Z_scope.

(** ** Types that come from the SDK headers *)

(** Modelled from the spec: [CONFIG_ESB_MAX_PAYLOAD_LENGTH], the size of the
    [data] array of [struct esb_payload], is a Kconfig value that is not in
    the repository; the wire format is "variable-length payload, <= 32
    bytes". *)
Definition CONFIG_ESB_MAX_PAYLOAD_LENGTH : nat := 32.

(** [struct esb_payload] of <esb.h>.  [length] is the number of valid bytes;
    [data] is the whole fixed-size array, valid or not. *)
Record esb_payload : Type := mk_esb_payload {
  length : Z;
  pipe : Z;
  rssi : Z;
  noack : bool;
  pid : Z;
  data : list Z
}.

(** The array really has its declared size. *)
Definition payload_buffer_ok (p : esb_payload) : Prop :=
  List.length (data p) = CONFIG_ESB_MAX_PAYLOAD_LENGTH.

(** [enum esb_evt_id] and [struct esb_evt]. *)
Inductive esb_evt_id : Type :=
| ESB_EVENT_TX_SUCCESS
| ESB_EVENT_TX_FAILED
| ESB_EVENT_RX_RECEIVED.

Record esb_evt : Type := mk_esb_evt {
  evt_id : esb_evt_id;
  tx_attempts : Z
}.

(** [enum usb_dc_status_code] of <zephyr/drivers/usb/usb_dc.h>. *)
Inductive usb_dc_status_code : Type :=
| USB_DC_ERROR
| USB_DC_RESET
| USB_DC_CONNECTED
| USB_DC_CONFIGURED
| USB_DC_DISCONNECTED
| USB_DC_SUSPEND
| USB_DC_RESUME
| USB_DC_INTERFACE
| USB_DC_SET_HALT
| USB_DC_CLEAR_HALT
| USB_DC_SOF
| USB_DC_UNKNOWN.

(** The integer a status code prints as with [%d]. *)
Definition status_value (s : usb_dc_status_code) : Z :=
  match s with
  | USB_DC_ERROR => 0
  | USB_DC_RESET => 1
  | USB_DC_CONNECTED => 2
  | USB_DC_CONFIGURED => 3
  | USB_DC_DISCONNECTED => 4
  | USB_DC_SUSPEND => 5
  | USB_DC_RESUME => 6
  | USB_DC_INTERFACE => 7
  | USB_DC_SET_HALT => 8
  | USB_DC_CLEAR_HALT => 9
  | USB_DC_SOF => 10
  | USB_DC_UNKNOWN => 11
  end.

(** A [const struct device *]: [None] is the null pointer, [Some name] the
    device that [device_get_binding name] returned. *)
Definition device_ptr : Type := option string.

(** ** Logging *)

Definition LOG_LEVEL_ERR : Z := 1.
Definition LOG_LEVEL_WRN : Z := 2.
Definition LOG_LEVEL_INF : Z := 3.
Definition LOG_LEVEL_DBG : Z := 4.

(** [LOG_MODULE_REGISTER(RECEIVER, LOG_LEVEL_INF)]: the level of this module. *)
Definition LOG_LEVEL : Z := LOG_LEVEL_INF.

(** What reaches the log backend: a formatted message with its arguments, or
    a hex dump of a byte range with its label. *)
Inductive log_record : Type :=
| LogMsg (level : Z) (fmt : string) (args : list Z)
| LogHexdump (level : Z) (bytes : list Z) (label : string).

Definition log_record_level (r : log_record) : Z :=
  match r with
  | LogMsg l _ _ => l
  | LogHexdump l _ _ => l
  end.

(** ** The statics of main.c and the two sinks *)

Record state : Type := mk_state {
  rx_payload : esb_payload;        (* static struct esb_payload rx_payload *)
  hid_dev : device_ptr;            (* static const struct device *hid_dev *)
  usb_configured_sem : Z;          (* K_SEM_DEFINE(usb_configured_sem, 0, 1) *)
  configured : bool;               (* static volatile bool configured *)
  hid_ep : list (list Z);          (* what hid_int_ep_write has been given *)
  log : list log_record            (* what the log backend has been given *)
}.

Definition zero_payload : esb_payload :=
  mk_esb_payload 0 0 0 false 0 (repeat 0 CONFIG_ESB_MAX_PAYLOAD_LENGTH).

(** The statics as their initialisers leave them. *)
Definition boot_state : state :=
  mk_state zero_payload None 0 true [] [].

Definition stmt : Type := state -> state.

Definition and_then (a b : stmt) : stmt := fun st => b (a st).

Notation "a ;; b" := (and_then a b) (at level 61, right associativity).

Definition set_rx_payload (p : esb_payload) : stmt := fun st =>
  mk_state p (hid_dev st) (usb_configured_sem st) (configured st)
           (hid_ep st) (log st).

Definition set_usb_configured_sem (c : Z) : stmt := fun st =>
  mk_state (rx_payload st) (hid_dev st) c (configured st) (hid_ep st) (log st).

Definition set_configured (b : bool) : stmt := fun st =>
  mk_state (rx_payload st) (hid_dev st) (usb_configured_sem st) b
           (hid_ep st) (log st).

Definition set_hid_ep (o : list (list Z)) : stmt := fun st =>
  mk_state (rx_payload st) (hid_dev st) (usb_configured_sem st) (configured st)
           o (log st).

Definition set_log (l : list log_record) : stmt := fun st =>
  mk_state (rx_payload st) (hid_dev st) (usb_configured_sem st) (configured st)
           (hid_ep st) l.

(** A log call is compiled in only when its level is at most [LOG_LEVEL]. *)
Definition emit (r : log_record) : stmt := fun st =>
  if log_record_level r <=? LOG_LEVEL then set_log (log st ++ [r]) st else st.

Definition LOG_ERR (fmt : string) (args : list Z) : stmt :=
  emit (LogMsg LOG_LEVEL_ERR fmt args).
Definition LOG_WRN (fmt : string) (args : list Z) : stmt :=
  emit (LogMsg LOG_LEVEL_WRN fmt args).
Definition LOG_INF (fmt : string) (args : list Z) : stmt :=
  emit (LogMsg LOG_LEVEL_INF fmt args).
Definition LOG_DBG (fmt : string) (args : list Z) : stmt :=
  emit (LogMsg LOG_LEVEL_DBG fmt args).

Definition LOG_HEXDUMP_INF (buf : list Z) (len : Z) (label : string) : stmt :=
  emit (LogHexdump LOG_LEVEL_INF (firstn (Z.to_nat len) buf) label).

(** ** Library calls *)

(** [buf[i]] on a byte array. *)
Definition at_index (buf : list Z) (i : nat) : Z := nth i buf 0.

(** [memcpy(dst, src, n)]: the first [n] bytes of [dst] become those of
    [src]. *)
Definition memcpy (dst src : list Z) (n : nat) : list Z :=
  firstn n src ++ skipn n dst.

(** [k_sem_give] on [usb_configured_sem], whose limit is 1. *)
Definition k_sem_give_usb_configured_sem : stmt := fun st =>
  if usb_configured_sem st <? 1
  then set_usb_configured_sem (usb_configured_sem st + 1) st
  else st.

(** [hid_int_ep_write(dev, data, data_len, NULL)]: [data_len] bytes of
    [data] are handed to the interrupt IN endpoint.  The return value is
    not looked at by the caller. *)
Definition hid_int_ep_write (dev : device_ptr) (buf : list Z) (data_len : nat)
  : stmt := fun st =>
  set_hid_ep (hid_ep st ++ [firstn data_len buf]) st.

Definition is_non_null (d : device_ptr) : bool :=
  match d with Some _ => true | None => false end.

(** ** usb_status_cb *)

Definition usb_status_cb (status : usb_dc_status_code) : stmt :=
  LOG_DBG "USB status callback: status=%d" [status_value status] ;;
  match status with
  | USB_DC_CONFIGURED =>
      LOG_INF "USB_DC_CONFIGURED received, setting configured = true" [] ;;
      set_configured true ;;
      k_sem_give_usb_configured_sem
  | USB_DC_DISCONNECTED =>
      LOG_INF "USB_DC_DISCONNECTED received, setting configured = false" [] ;;
      set_configured false
  | USB_DC_RESET =>
      LOG_INF "USB_DC_RESET received, setting configured = false" [] ;;
      set_configured false
  | USB_DC_SUSPEND =>
      LOG_INF "USB_DC_SUSPEND received" []
  | USB_DC_RESUME =>
      LOG_INF "USB_DC_RESUME received" []
  | _ =>
      LOG_DBG "Unknown USB status code: %d" [status_value status]
  end.

(** ** receiver_esb_event_handler *)

Section Receiver.

(** [esb_read_rx_payload(&rx_payload)] belongs to the radio driver: from the
    current contents of the pointed-to struct it gives the return code and
    the contents after the call. *)
Variable esb_read_rx_payload : esb_payload -> Z * esb_payload.

(** The body of [case ESB_EVENT_RX_RECEIVED] once the read has returned 0,
    with the blocks as the braces of the source delimit them: the
    [else if (length == 2)] and the following [else] belong to
    [if (hid_dev && configured)], and the [else] that logs the read failure
    belongs to [if (rx_payload.length == 8)]. *)
Definition rx_received_body : stmt :=
  (fun st => LOG_INF "Received Payload (length: %d bytes)"
               [length (rx_payload st)] st) ;;
  (fun st => LOG_INF "Data: D+ = %d, D- = %d"
               [at_index (data (rx_payload st)) 0;
                at_index (data (rx_payload st)) 1] st) ;;
  (fun st => LOG_HEXDUMP_INF (data (rx_payload st)) (length (rx_payload st))
               "Raw Payload" st) ;;
  (fun st =>
     if length (rx_payload st) =? 8 then
       (LOG_INF "Processing HID report (8 bytes)" [] ;;
        (fun st =>
           if is_non_null (hid_dev st) && configured st then
             (let hid_report := repeat 0 8%nat in
              let release_report := repeat 0 8%nat in
              let hid_report := memcpy hid_report (data (rx_payload st)) 8 in
              hid_int_ep_write (hid_dev st) hid_report 8 ;;
              hid_int_ep_write (hid_dev st) release_report 8) st
           else if length (rx_payload st) =? 2 then
             LOG_INF "Received test payload (2 bytes): D+ = %d, D- = %d"
               [at_index (data (rx_payload st)) 0;
                at_index (data (rx_payload st)) 1] st
           else
             (LOG_WRN "Unexpected payload length: %d"
                [length (rx_payload st)] ;;
              LOG_HEXDUMP_INF (data (rx_payload st)) (length (rx_payload st))
                "Unexpected Payload") st)) st
     else
       LOG_ERR "Failed to read RX payload" [] st).

Definition receiver_esb_event_handler (event : esb_evt) : stmt :=
  match evt_id event with
  | ESB_EVENT_TX_SUCCESS =>
      LOG_INF "TX success (unexpected in PRX mode)" []
  | ESB_EVENT_TX_FAILED =>
      LOG_ERR "TX failed (unexpected in PRX mode)" []
  | ESB_EVENT_RX_RECEIVED =>
      fun st =>
        let (rc, p) := esb_read_rx_payload (rx_payload st) in
        let st := set_rx_payload p st in
        if rc =? 0 then rx_received_body st   (* ends in [break] *)
        else st                               (* leaves the switch *)
  end.

End Receiver.

(** The three log records every successfully read payload produces. *)
Definition rx_common_log (p : esb_payload) : list log_record :=
  [ LogMsg LOG_LEVEL_INF "Received Payload (length: %d bytes)" [length p];
    LogMsg LOG_LEVEL_INF "Data: D+ = %d, D- = %d"
      [at_index (data p) 0; at_index (data p) 1];
    LogHexdump LOG_LEVEL_INF (firstn (Z.to_nat (length p)) (data p))
      "Raw Payload" ].

(** ** Concrete inputs

    A payload as the radio delivers it: [len] valid bytes at the start of
    the array, zeros in the rest. *)
Definition payload_of (len : Z) (bytes : list Z) : esb_payload :=
  mk_esb_payload len 0 0 false 0
    (bytes ++ repeat 0 (CONFIG_ESB_MAX_PAYLOAD_LENGTH - List.length bytes)).

(** A driver whose read succeeds and fills [rx_payload] with [p]. *)
Definition driver_gives (p : esb_payload) : esb_payload -> Z * esb_payload :=
  fun _ => (0, p).

(** A driver whose read finds the FIFO empty: [-ENODATA], struct untouched. *)
Definition driver_no_data : esb_payload -> Z * esb_payload :=
  fun buf => (-61, buf).

Definition rx_event : esb_evt := mk_esb_evt ESB_EVENT_RX_RECEIVED 0.

(** The statics once [main] has bound "HID_0". *)
Definition ready_state : state :=
  mk_state zero_payload (Some "HID_0"%string) 0 true [] [].

(** ** The callbacks as the system delivers them

    [main] registers [usb_status_cb] with the USB stack and
    [receiver_esb_event_handler] with the radio driver; from then on the
    firmware is the sequence of their invocations, each run to its end.  A
    radio event comes with the behaviour of the driver's read during it. *)
Inductive callback : Type :=
| UsbStatus (status : usb_dc_status_code)
| EsbEvent (drv : esb_payload -> Z * esb_payload) (event : esb_evt).

Definition deliver (c : callback) : stmt :=
  match c with
  | UsbStatus status => usb_status_cb status
  | EsbEvent drv event => receiver_esb_event_handler drv event
  end.

Definition run (cs : list callback) : stmt := fun st =>
  fold_left (fun s c => deliver c s) cs st.

(** The status codes whose branch of [usb_status_cb] assigns [configured]. *)
Definition assigns_configured (c : callback) : bool :=
  match c with
  | UsbStatus USB_DC_CONFIGURED
  | UsbStatus USB_DC_DISCONNECTED
  | UsbStatus USB_DC_RESET => true
  | _ => false
  end.

Definition is_configured_event (c : callback) : bool :=
  match c with
  | UsbStatus USB_DC_CONFIGURED => true
  | _ => false
  end.

(** A live report followed by its release report, for each of [lives]. *)
Definition report_pairs (lives : list (list Z)) : list (list Z) :=
  flat_map (fun live => [live; repeat 0 8%nat]) lives.

(** ** main *)

(** [hid_report_desc], the report descriptor handed to the HID class. *)
Definition hid_report_desc : list Z :=
  [ 0x05; 0x01; 0x09; 0x06; 0xA1; 0x01; 0x75; 0x01;
    0x95; 0x08; 0x05; 0x07; 0x19; 0xE0; 0x29; 0xE7;
    0x15; 0x00; 0x25; 0x01; 0x81; 0x02; 0x95; 0x01;
    0x75; 0x08; 0x81; 0x01; 0x95; 0x06; 0x75; 0x08;
    0x15; 0x00; 0x25; 0x65; 0x05; 0x07; 0x19; 0x00;
    0x29; 0x65; 0x81; 0x00; 0xC0 ].

(** The enumerators of <esb.h> that [main] assigns, with their siblings. *)
Inductive esb_protocol : Type := ESB_PROTOCOL_ESB | ESB_PROTOCOL_ESB_DPL.
Inductive esb_mode : Type := ESB_MODE_PTX | ESB_MODE_PRX.
Inductive esb_bitrate : Type :=
| ESB_BITRATE_2MBPS | ESB_BITRATE_1MBPS | ESB_BITRATE_250KBPS.

(** The functions of main.c whose address is taken. *)
Inductive fn_ptr : Type :=
| fn_null
| fn_usb_status_cb
| fn_receiver_esb_event_handler.

(** [struct esb_config], the fields that [main] assigns; the others keep
    what ESB_DEFAULT_CONFIG gave them and are not looked at here. *)
Record struct_esb_config : Type := mk_esb_config {
  protocol : esb_protocol;
  mode : esb_mode;
  event_handler : fn_ptr;
  bitrate : esb_bitrate;
  payload_length : Z;
  retransmit_count : Z
}.

(** The calls into the SDK that leave something behind, with their
    arguments. *)
Inductive sdk_call : Type :=
| Call_usb_hid_register_device (dev : device_ptr) (desc : list Z) (size : nat)
| Call_usb_hid_init (dev : device_ptr)
| Call_k_sleep_ms (ms : Z)
| Call_usb_dc_set_status_callback (cb : fn_ptr)
| Call_usb_enable
| Call_esb_init (cfg : struct_esb_config)
| Call_esb_set_base_address_0 (addr : list Z)
| Call_esb_set_prefixes (prefixes : list Z) (num_pipes : Z)
| Call_esb_start_rx.

(** What the SDK and the build answer to [main]: the results of the calls it
    tests and the Kconfig switch it reads. *)
Record platform : Type := mk_platform {
  device_get_binding : string -> device_ptr;
  device_is_ready : device_ptr -> bool;
  usb_hid_init : device_ptr -> Z;
  CONFIG_USB_DEVICE_STACK : bool;
  usb_enable : Z;
  esb_init : struct_esb_config -> Z;
  esb_set_base_address_0 : list Z -> Z;
  esb_set_prefixes : list Z -> Z -> Z;
  esb_start_rx : Z
}.

(** The statics of main.c with [esb_config] and the SDK calls made so far. *)
Record board : Type := mk_board {
  statics : state;
  esb_config : struct_esb_config;
  sdk_calls : list sdk_call
}.

Definition set_hid_dev (d : device_ptr) : stmt := fun st =>
  mk_state (rx_payload st) d (usb_configured_sem st) (configured st)
           (hid_ep st) (log st).

Definition on_statics (s : stmt) (b : board) : board :=
  mk_board (s (statics b)) (esb_config b) (sdk_calls b).

Definition set_esb_config (cfg : struct_esb_config) (b : board) : board :=
  mk_board (statics b) cfg (sdk_calls b).

Definition sdk (c : sdk_call) (b : board) : board :=
  mk_board (statics b) (esb_config b) (sdk_calls b ++ [c]).

(** A piece of a function body: it either falls through ([None]) or has
    executed [return rc] ([Some rc]). *)
Definition proc : Type := board -> option Z * board.

Definition step (f : board -> board) : proc := fun b => (None, f b).

Definition ret (rc : Z) : proc := fun b => (Some rc, b).

Definition then_proc (p q : proc) : proc := fun b =>
  match p b with
  | (Some rc, b') => (Some rc, b')
  | (None, b') => q b'
  end.

Notation "p >> q" := (then_proc p q) (at level 62, right associativity).

(** [if (c) { p }] *)
Definition when (c : board -> bool) (p : proc) : proc := fun b =>
  if c b then p b else (None, b).

(** [err = f(...); if (err) { LOG_ERR(fmt, err); return 0; }] *)
Definition check_err (f : board -> Z) (fmt : string) : proc := fun b =>
  let err := f b in
  if negb (err =? 0)
  then (step (on_statics (LOG_ERR fmt [err])) >> ret 0) b
  else (None, b).

Definition info (fmt : string) : proc := step (on_statics (LOG_INF fmt [])).

Definition main_body (pf : platform) : proc :=
  info "Starting 2.4GHz HID Keyboard sample" >>
  step (on_statics (set_hid_dev (device_get_binding pf "HID_0"))) >>
  when (fun b => negb (is_non_null (hid_dev (statics b))))
    (step (on_statics
       (LOG_ERR "Failed to get USB HID device 'HID_0'. Exiting." [])) >>
     ret 0) >>
  info "USB device node acquired, checking readiness..." >>
  when (fun b => negb (device_is_ready pf (hid_dev (statics b))))
    (step (on_statics (LOG_ERR "USB device not ready. Exiting." [])) >>
     ret 0) >>
  info "USB device found and ready." >>
  (fun b => step (sdk (Call_usb_hid_register_device (hid_dev (statics b))
                         hid_report_desc (List.length hid_report_desc))) b) >>
  info "HID registered." >>
  (fun b => step (sdk (Call_usb_hid_init (hid_dev (statics b)))) b) >>
  check_err (fun b => usb_hid_init pf (hid_dev (statics b)))
    "Failed to init USB HID, err %d" >>
  info "HID initialized." >>
  info "Waiting for hardware readiness before enabling USB..." >>
  step (sdk (Call_k_sleep_ms 10)) >>
  info "Attempting to enable USB..." >>
  when (fun _ => CONFIG_USB_DEVICE_STACK pf)
    (step (sdk (Call_usb_dc_set_status_callback fn_usb_status_cb)) >>
     step (sdk Call_usb_enable) >>
     check_err (fun _ => usb_enable pf) "Failed to enable USB, err %d" >>
     info "USB enabled successfully.") >>
  step (sdk (Call_k_sleep_ms 350)) >>
  step (fun b => set_esb_config
          (mk_esb_config ESB_PROTOCOL_ESB_DPL ESB_MODE_PRX
             fn_receiver_esb_event_handler ESB_BITRATE_2MBPS 8 3) b) >>
  (fun b => step (sdk (Call_esb_init (esb_config b))) b) >>
  check_err (fun b => esb_init pf (esb_config b))
    "ESB initialization failed, err %d" >>
  step (sdk (Call_esb_set_base_address_0 [0xAB; 0x12; 0xCD; 0x34])) >>
  check_err (fun _ => esb_set_base_address_0 pf [0xAB; 0x12; 0xCD; 0x34])
    "Failed to set base address 0, err %d" >>
  step (sdk (Call_esb_set_prefixes
               [0xA1; 0xA2; 0xA3; 0xA4; 0xA5; 0xA6; 0xA7; 0xA8] 8)) >>
  check_err (fun _ => esb_set_prefixes pf
                        [0xA1; 0xA2; 0xA3; 0xA4; 0xA5; 0xA6; 0xA7; 0xA8] 8)
    "Failed to set prefixes, err %d" >>
  step (sdk Call_esb_start_rx) >>
  check_err (fun _ => esb_start_rx pf) "Failed to start ESB RX, err %d" >>
  info "ESB Receiver initialized and started successfully.".

(** How [main] ends: by a [return], or in [while (1) k_sleep(K_SECONDS(1))],
    which it never leaves. *)
Inductive main_outcome : Type :=
| Returned (rc : Z)
| IdleLoop.

Definition main (pf : platform) (b : board) : main_outcome * board :=
  match main_body pf b with
  | (Some rc, b') => (Returned rc, b')
  | (None, b') => (IdleLoop, b')
  end.

(** The board at reset, given the value of ESB_DEFAULT_CONFIG. *)
Definition boot_board (default_config : struct_esb_config) : board :=
  mk_board boot_state default_config [].

(** A platform on which every call succeeds. *)
Definition good_platform : platform :=
  mk_platform (fun name => Some name) (fun _ => true) (fun _ => 0) true 0
              (fun _ => 0) (fun _ => 0) (fun _ _ => 0) 0.

(** A platform on which "HID_0" does not exist. *)
Definition no_hid_platform : platform :=
  mk_platform (fun _ => None) (fun _ => true) (fun _ => 0) true 0
              (fun _ => 0) (fun _ => 0) (fun _ _ => 0) 0.

(** A platform on which the radio refuses to start ([-EINVAL]). *)
Definition no_radio_platform : platform :=
  mk_platform (fun name => Some name) (fun _ => true) (fun _ => 0) true 0
              (fun _ => 0) (fun _ => 0) (fun _ _ => 0) (-22).

Definition some_default_config : struct_esb_config :=
  mk_esb_config ESB_PROTOCOL_ESB_DPL ESB_MODE_PTX fn_null
                ESB_BITRATE_2MBPS 32 3.

(** ** Frame properties of the primitive statements *)

Lemma and_then_eq (a b : stmt) (st : state) : (a ;; b) st = b (a st).
Proof. reflexivity. Qed.

Lemma emit_log (r : log_record) (st : state) :
  log (emit r st) =
  log st ++ (if log_record_level r <=? LOG_LEVEL then [r] else []).
Proof.
  unfold emit. destruct (log_record_level r <=? LOG_LEVEL); simpl.
  - reflexivity.
  - now rewrite app_nil_r.
Qed.

Lemma emit_frame (r : log_record) (st : state) :
  rx_payload (emit r st) = rx_payload st /\
  hid_dev (emit r st) = hid_dev st /\
  usb_configured_sem (emit r st) = usb_configured_sem st /\
  configured (emit r st) = configured st /\
  hid_ep (emit r st) = hid_ep st.
Proof.
  unfold emit. destruct (log_record_level r <=? LOG_LEVEL); simpl; tauto.
Qed.

Lemma emit_rx_payload r st : rx_payload (emit r st) = rx_payload st.
Proof. apply emit_frame. Qed.

Lemma emit_hid_dev r st : hid_dev (emit r st) = hid_dev st.
Proof. apply emit_frame. Qed.

Lemma emit_configured r st : configured (emit r st) = configured st.
Proof. apply emit_frame. Qed.

Lemma emit_hid_ep r st : hid_ep (emit r st) = hid_ep st.
Proof. apply emit_frame. Qed.

Lemma k_sem_give_configured st :
  configured (k_sem_give_usb_configured_sem st) = configured st.
Proof.
  unfold k_sem_give_usb_configured_sem.
  now destruct (usb_configured_sem st <? 1).
Qed.

Lemma hid_int_ep_write_hid_ep dev buf n st :
  hid_ep (hid_int_ep_write dev buf n st) = hid_ep st ++ [firstn n buf].
Proof. reflexivity. Qed.

Lemma hid_int_ep_write_log dev buf n st :
  log (hid_int_ep_write dev buf n st) = log st.
Proof. reflexivity. Qed.

Lemma hid_int_ep_write_configured dev buf n st :
  configured (hid_int_ep_write dev buf n st) = configured st.
Proof. reflexivity. Qed.

Lemma hid_int_ep_write_rx_payload dev buf n st :
  rx_payload (hid_int_ep_write dev buf n st) = rx_payload st.
Proof. reflexivity. Qed.

Create Rewrite HintDb frame.

#[global] Hint Rewrite
  and_then_eq emit_rx_payload emit_hid_dev emit_configured emit_hid_ep
  emit_log k_sem_give_configured hid_int_ep_write_hid_ep
  hid_int_ep_write_log hid_int_ep_write_configured
  hid_int_ep_write_rx_payload : frame.

Ltac unfold_log :=
  unfold LOG_ERR, LOG_WRN, LOG_INF, LOG_DBG, LOG_HEXDUMP_INF.

Ltac frame := unfold_log; autorewrite with frame; simpl.

(** [memcpy] of 8 bytes from a full-size payload array into an 8-byte array
    replaces all of it. *)
Lemma memcpy_report (src : list Z) :
  (8 <= List.length src)%nat ->
  memcpy (repeat 0 8%nat) src 8 = firstn 8 src.
Proof.
  intros Hlen. unfold memcpy. simpl skipn. apply app_nil_r.
Qed.

Lemma firstn_8_length (src : list Z) :
  (8 <= List.length src)%nat -> List.length (firstn 8 src) = 8%nat.
Proof. intros Hlen. rewrite length_firstn. lia. Qed.

Lemma at_index_firstn (src : list Z) (i n : nat) :
  (i < n)%nat -> at_index (firstn n src) i = at_index src i.
Proof.
  unfold at_index. revert i n.
  induction src as [|b src IH]; intros i n Hi.
  - rewrite firstn_nil. reflexivity.
  - destruct n as [|n]; [lia|]. destruct i as [|i]; simpl.
    + reflexivity.
    + apply IH. lia.
Qed.

(** ** What the receive branch does, case by case *)

Section ReceiverFacts.

Variable esb_read_rx_payload : esb_payload -> Z * esb_payload.

Abbreviation handler := (receiver_esb_event_handler esb_read_rx_payload).

Lemma handler_rx_unfold (event : esb_evt) (st : state) :
  evt_id event = ESB_EVENT_RX_RECEIVED ->
  handler event st =
  (if fst (esb_read_rx_payload (rx_payload st)) =? 0
   then rx_received_body
          (set_rx_payload (snd (esb_read_rx_payload (rx_payload st))) st)
   else set_rx_payload (snd (esb_read_rx_payload (rx_payload st))) st).
Proof.
  intros Hev. unfold receiver_esb_event_handler. rewrite Hev.
  destruct (esb_read_rx_payload (rx_payload st)) as [rc p]. reflexivity.
Qed.

Lemma handler_rx_ok (event : esb_evt) (st : state) (p : esb_payload) :
  evt_id event = ESB_EVENT_RX_RECEIVED ->
  esb_read_rx_payload (rx_payload st) = (0, p) ->
  handler event st = rx_received_body (set_rx_payload p st).
Proof.
  intros Hev Hrd. rewrite handler_rx_unfold by assumption.
  rewrite Hrd. reflexivity.
Qed.

Lemma handler_rx_failed (event : esb_evt) (st : state) rc p :
  evt_id event = ESB_EVENT_RX_RECEIVED ->
  esb_read_rx_payload (rx_payload st) = (rc, p) ->
  rc <> 0 ->
  handler event st = set_rx_payload p st.
Proof.
  intros Hev Hrd Hrc. rewrite handler_rx_unfold by assumption.
  rewrite Hrd. simpl. apply Z.eqb_neq in Hrc. now rewrite Hrc.
Qed.

(** Reports written by the body: two when the length is 8, the device
    pointer is non-null and [configured] is set; none otherwise. *)
Lemma rx_received_body_hid_ep (st : state) :
  hid_ep (rx_received_body st) =
  hid_ep st ++
  (if (length (rx_payload st) =? 8) && (is_non_null (hid_dev st) && configured st)
   then [firstn 8 (memcpy (repeat 0 8%nat) (data (rx_payload st)) 8);
         repeat 0 8%nat]
   else []).
Proof.
  unfold rx_received_body. frame.
  destruct (length (rx_payload st) =? 8) eqn:Hlen; frame.
  - destruct (is_non_null (hid_dev st) && configured st) eqn:Hgate; frame.
    + now rewrite <- app_assoc.
    + apply Z.eqb_eq in Hlen. rewrite Hlen. frame. now rewrite app_nil_r.
  - now rewrite app_nil_r.
Qed.

(** Log records written by the body. *)
Lemma rx_received_body_log (st : state) :
  log (rx_received_body st) =
  log st ++ rx_common_log (rx_payload st) ++
  (if length (rx_payload st) =? 8 then
     LogMsg LOG_LEVEL_INF "Processing HID report (8 bytes)" [] ::
     (if is_non_null (hid_dev st) && configured st then []
      else [ LogMsg LOG_LEVEL_WRN "Unexpected payload length: %d" [8];
             LogHexdump LOG_LEVEL_INF (firstn 8 (data (rx_payload st)))
               "Unexpected Payload" ])
   else [ LogMsg LOG_LEVEL_ERR "Failed to read RX payload" [] ]).
Proof.
  unfold rx_received_body, rx_common_log. frame.
  destruct (length (rx_payload st) =? 8) eqn:Hlen; frame.
  - destruct (is_non_null (hid_dev st) && configured st) eqn:Hgate; frame.
    + now rewrite <- !app_assoc.
    + apply Z.eqb_eq in Hlen. rewrite Hlen. frame.
      now rewrite <- !app_assoc.
  - now rewrite <- !app_assoc.
Qed.

Lemma rx_received_body_configured (st : state) :
  configured (rx_received_body st) = configured st.
Proof.
  unfold rx_received_body. frame.
  destruct (length (rx_payload st) =? 8); frame; [|reflexivity].
  destruct (is_non_null (hid_dev st) && configured st); frame; [reflexivity|].
  destruct (length (rx_payload st) =? 2); frame; reflexivity.
Qed.

End ReceiverFacts.

(** ** The connection state tracker *)

(** C6.  After [usb_status_cb] the flag [configured] is true for
    USB_DC_CONFIGURED, false for USB_DC_DISCONNECTED and for USB_DC_RESET,
    and what it was before for USB_DC_SUSPEND, USB_DC_RESUME and every other
    status code. *)
Theorem usb_status_cb_readiness (status : usb_dc_status_code) (st : state) :
  configured (usb_status_cb status st) =
  match status with
  | USB_DC_CONFIGURED => true
  | USB_DC_DISCONNECTED | USB_DC_RESET => false
  | _ => configured st
  end.
Proof.
  unfold usb_status_cb. destruct status; frame; reflexivity.
Qed.

Lemma configured_event_sets_flag (st : state) :
  configured (usb_status_cb USB_DC_CONFIGURED st) = true.
Proof. unfold usb_status_cb. frame. reflexivity. Qed.

(** C7.  Whatever the flag was, it is true after one or more consecutive
    USB_DC_CONFIGURED events, and a second such event leaves it as the first
    one set it. *)
Theorem configured_event_idempotent (st : state) (n : nat) :
  configured (Nat.iter (S n) (usb_status_cb USB_DC_CONFIGURED) st) = true /\
  configured (usb_status_cb USB_DC_CONFIGURED
                (usb_status_cb USB_DC_CONFIGURED st)) =
  configured (usb_status_cb USB_DC_CONFIGURED st).
Proof.
  split.
  - destruct n as [|n]; simpl Nat.iter; apply configured_event_sets_flag.
  - now rewrite !configured_event_sets_flag.
Qed.

(** ** The receive dispatcher *)

(** C8.  Whatever the radio event and whatever the driver's read returns,
    [receiver_esb_event_handler] leaves [configured] as it found it. *)
Theorem handler_preserves_configured
    (drv : esb_payload -> Z * esb_payload) (event : esb_evt) (st : state) :
  configured (receiver_esb_event_handler drv event st) = configured st.
Proof.
  destruct (evt_id event) eqn:Hev.
  - unfold receiver_esb_event_handler. rewrite Hev. frame. reflexivity.
  - unfold receiver_esb_event_handler. rewrite Hev. frame. reflexivity.
  - rewrite handler_rx_unfold by exact Hev.
    destruct (fst (drv (rx_payload st)) =? 0).
    + now rewrite rx_received_body_configured.
    + reflexivity.
Qed.

(** C1.  A successfully read payload of length 8, with [hid_dev] non-null
    and [configured] set, makes the handler write exactly two reports on the
    HID endpoint: the first 8 bytes of the payload, then 8 zero bytes; both
    are 8 bytes long. *)
Theorem forward_report_then_release
    (drv : esb_payload -> Z * esb_payload) (event : esb_evt) (st : state)
    (p : esb_payload) :
  evt_id event = ESB_EVENT_RX_RECEIVED ->
  drv (rx_payload st) = (0, p) ->
  payload_buffer_ok p ->
  length p = 8 ->
  is_non_null (hid_dev st) = true ->
  configured st = true ->
  hid_ep (receiver_esb_event_handler drv event st) =
    hid_ep st ++ [firstn 8 (data p); repeat 0 8%nat] /\
  List.length (firstn 8 (data p)) = 8%nat /\
  List.length (repeat 0 8%nat) = 8%nat.
Proof.
  intros Hev Hrd Hbuf Hlen Hdev Hcfg.
  assert (Hsz : (8 <= List.length (data p))%nat).
  { rewrite Hbuf. unfold CONFIG_ESB_MAX_PAYLOAD_LENGTH. lia. }
  split; [|split].
  - rewrite (handler_rx_ok drv event st p Hev Hrd).
    rewrite rx_received_body_hid_ep.
    cbn [set_rx_payload rx_payload hid_dev configured hid_ep].
    rewrite Hlen, Hdev, Hcfg. cbn [Z.eqb Pos.eqb andb].
    rewrite (memcpy_report (data p) Hsz).
    now rewrite firstn_firstn.
  - now apply firstn_8_length.
  - apply repeat_length.
Qed.

Lemma forward_report_then_release_witness :
  hid_ep (receiver_esb_event_handler
            (driver_gives (payload_of 8 [0; 0; 4; 0; 0; 0; 0; 0]))
            rx_event ready_state) =
  [[0; 0; 4; 0; 0; 0; 0; 0]; [0; 0; 0; 0; 0; 0; 0; 0]].
Proof.
  apply (forward_report_then_release
           (driver_gives (payload_of 8 [0; 0; 4; 0; 0; 0; 0; 0]))
           rx_event ready_state (payload_of 8 [0; 0; 4; 0; 0; 0; 0; 0]));
    reflexivity.
Defined.

(** C9.  With [hid_dev] null, a successfully read payload of length 8 makes
    the handler write nothing on the HID endpoint even though [configured]
    is set. *)
Theorem null_device_blocks_forwarding
    (drv : esb_payload -> Z * esb_payload) (event : esb_evt) (st : state)
    (p : esb_payload) :
  evt_id event = ESB_EVENT_RX_RECEIVED ->
  drv (rx_payload st) = (0, p) ->
  length p = 8 ->
  configured st = true ->
  hid_dev st = None ->
  hid_ep (receiver_esb_event_handler drv event st) = hid_ep st.
Proof.
  intros Hev Hrd Hlen Hcfg Hdev.
  rewrite (handler_rx_ok drv event st p Hev Hrd).
  rewrite rx_received_body_hid_ep. simpl.
  rewrite Hlen, Hdev. simpl. apply app_nil_r.
Qed.

Lemma null_device_blocks_forwarding_witness :
  configured boot_state = true /\
  hid_dev boot_state = None /\
  hid_ep (receiver_esb_event_handler
            (driver_gives (payload_of 8 [0; 0; 4; 0; 0; 0; 0; 0]))
            rx_event boot_state) = [].
Proof.
  split; [reflexivity|]. split; [reflexivity|].
  apply (null_device_blocks_forwarding
           (driver_gives (payload_of 8 [0; 0; 4; 0; 0; 0; 0; 0]))
           rx_event boot_state (payload_of 8 [0; 0; 4; 0; 0; 0; 0; 0]));
    reflexivity.
Defined.

(** C4.  A successfully read payload whose length is neither 2 nor 8, or
    whose length is 8 while [configured] is false, makes the handler write
    nothing on the HID endpoint; the payload only reaches the log (its
    length, its first two bytes and its hex dump, then whatever the branch
    adds). *)
Theorem unforwarded_payload_only_logged
    (drv : esb_payload -> Z * esb_payload) (event : esb_evt) (st : state)
    (p : esb_payload) :
  evt_id event = ESB_EVENT_RX_RECEIVED ->
  drv (rx_payload st) = (0, p) ->
  (length p <> 2 /\ length p <> 8) \/ (length p = 8 /\ configured st = false) ->
  hid_ep (receiver_esb_event_handler drv event st) = hid_ep st /\
  exists more,
    log (receiver_esb_event_handler drv event st) =
    log st ++ rx_common_log p ++ more.
Proof.
  intros Hev Hrd Hcase.
  rewrite (handler_rx_ok drv event st p Hev Hrd). split.
  - rewrite rx_received_body_hid_ep. simpl.
    destruct Hcase as [[_ Hne]|[_ Hcfg]].
    + apply Z.eqb_neq in Hne. rewrite Hne. simpl. apply app_nil_r.
    + rewrite Hcfg, andb_false_r, andb_false_r. apply app_nil_r.
  - rewrite rx_received_body_log. simpl rx_payload. eexists. reflexivity.
Qed.

Lemma unforwarded_payload_only_logged_witness :
  configured (usb_status_cb USB_DC_DISCONNECTED ready_state) = false /\
  hid_ep (receiver_esb_event_handler
            (driver_gives (payload_of 8 [0; 0; 4; 0; 0; 0; 0; 0]))
            rx_event (usb_status_cb USB_DC_DISCONNECTED ready_state)) = [].
Proof.
  split; [reflexivity|].
  apply (unforwarded_payload_only_logged
           (driver_gives (payload_of 8 [0; 0; 4; 0; 0; 0; 0; 0]))
           rx_event (usb_status_cb USB_DC_DISCONNECTED ready_state)
           (payload_of 8 [0; 0; 4; 0; 0; 0; 0; 0]));
    [reflexivity | reflexivity | right; split; reflexivity].
Defined.

(** C10.  For every successfully read payload, whatever its length (0 and 1
    included), the first two records the handler logs are the length and
    then [data[0]] and [data[1]] of the array; they precede every record
    that depends on the length, so for a length below 2 the logged bytes lie
    outside the valid part of the payload. *)
Theorem first_two_bytes_logged_for_any_length
    (drv : esb_payload -> Z * esb_payload) (event : esb_evt) (st : state)
    (p : esb_payload) :
  evt_id event = ESB_EVENT_RX_RECEIVED ->
  drv (rx_payload st) = (0, p) ->
  exists rest,
    log (receiver_esb_event_handler drv event st) =
    log st ++
    LogMsg LOG_LEVEL_INF "Received Payload (length: %d bytes)" [length p] ::
    LogMsg LOG_LEVEL_INF "Data: D+ = %d, D- = %d"
      [at_index (data p) 0; at_index (data p) 1] ::
    rest.
Proof.
  intros Hev Hrd.
  rewrite (handler_rx_ok drv event st p Hev Hrd).
  rewrite rx_received_body_log. unfold rx_common_log.
  cbn [set_rx_payload rx_payload log app].
  eexists. reflexivity.
Qed.

Lemma first_two_bytes_logged_for_any_length_witness :
  length (payload_of 0 [7; 9]) = 0 /\
  exists rest,
    log (receiver_esb_event_handler (driver_gives (payload_of 0 [7; 9]))
           rx_event ready_state) =
    LogMsg LOG_LEVEL_INF "Received Payload (length: %d bytes)" [0] ::
    LogMsg LOG_LEVEL_INF "Data: D+ = %d, D- = %d" [7; 9] :: rest.
Proof.
  split; [reflexivity|].
  apply (first_two_bytes_logged_for_any_length
           (driver_gives (payload_of 0 [7; 9])) rx_event ready_state
           (payload_of 0 [7; 9])); reflexivity.
Defined.

(** C2.  What the handler does when the driver's read returns non-zero: it
    writes no report, and it logs nothing either, because the [else] that
    holds "Failed to read RX payload" is attached to the length test and not
    to the test of the return code. *)
Theorem read_failure_logs_nothing
    (drv : esb_payload -> Z * esb_payload) (event : esb_evt) (st : state)
    (rc : Z) (p : esb_payload) :
  evt_id event = ESB_EVENT_RX_RECEIVED ->
  drv (rx_payload st) = (rc, p) ->
  rc <> 0 ->
  log (receiver_esb_event_handler drv event st) = log st /\
  hid_ep (receiver_esb_event_handler drv event st) = hid_ep st.
Proof.
  intros Hev Hrd Hrc.
  rewrite (handler_rx_failed drv event st rc p Hev Hrd Hrc).
  split; reflexivity.
Qed.

Lemma read_failure_logs_nothing_witness :
  fst (driver_no_data (rx_payload ready_state)) = -61 /\
  log (receiver_esb_event_handler driver_no_data rx_event ready_state) = [] /\
  hid_ep (receiver_esb_event_handler driver_no_data rx_event ready_state) = [].
Proof.
  split; [reflexivity|].
  apply (read_failure_logs_nothing driver_no_data rx_event ready_state
           (-61) (rx_payload ready_state)); [reflexivity | reflexivity | lia].
Defined.

(** C3.  What the handler does with a successfully read payload of length 2:
    it writes no report, and after the three records common to every payload
    it logs the error "Failed to read RX payload"; the record "Received test
    payload (2 bytes)" is not produced, since its branch lies inside the
    block of length 8. *)
Theorem two_byte_payload_logged_as_read_failure
    (drv : esb_payload -> Z * esb_payload) (event : esb_evt) (st : state)
    (p : esb_payload) :
  evt_id event = ESB_EVENT_RX_RECEIVED ->
  drv (rx_payload st) = (0, p) ->
  length p = 2 ->
  hid_ep (receiver_esb_event_handler drv event st) = hid_ep st /\
  log (receiver_esb_event_handler drv event st) =
    log st ++ rx_common_log p ++
    [LogMsg LOG_LEVEL_ERR "Failed to read RX payload" []].
Proof.
  intros Hev Hrd Hlen.
  rewrite (handler_rx_ok drv event st p Hev Hrd). split.
  - rewrite rx_received_body_hid_ep.
    cbn [set_rx_payload rx_payload hid_ep]. rewrite Hlen.
    cbn [Z.eqb Pos.eqb andb]. apply app_nil_r.
  - rewrite rx_received_body_log.
    cbn [set_rx_payload rx_payload log]. rewrite Hlen.
    reflexivity.
Qed.

Lemma two_byte_payload_logged_as_read_failure_witness :
  hid_ep (receiver_esb_event_handler (driver_gives (payload_of 2 [1; 1]))
            rx_event ready_state) = [] /\
  log (receiver_esb_event_handler (driver_gives (payload_of 2 [1; 1]))
         rx_event ready_state) =
  [ LogMsg LOG_LEVEL_INF "Received Payload (length: %d bytes)" [2];
    LogMsg LOG_LEVEL_INF "Data: D+ = %d, D- = %d" [1; 1];
    LogHexdump LOG_LEVEL_INF [1; 1] "Raw Payload";
    LogMsg LOG_LEVEL_ERR "Failed to read RX payload" [] ].
Proof.
  apply (two_byte_payload_logged_as_read_failure
           (driver_gives (payload_of 2 [1; 1])) rx_event ready_state
           (payload_of 2 [1; 1])); reflexivity.
Defined.

(** C5, as the code has it.  Every report the handler writes is exactly 8
    bytes long.  It writes either nothing or a live report followed by a
    release report: the live report is the first 8 bytes of the payload,
    unchanged, so its byte 1 is byte 1 of the payload; the release report is
    all zeros, so its byte 1 is zero. *)
Theorem emitted_reports_shape
    (drv : esb_payload -> Z * esb_payload) (event : esb_evt) (st : state) :
  payload_buffer_ok (snd (drv (rx_payload st))) ->
  exists emitted,
    hid_ep (receiver_esb_event_handler drv event st) = hid_ep st ++ emitted /\
    Forall (fun r => List.length r = 8%nat) emitted /\
    (emitted = [] \/
     (emitted = [firstn 8 (data (snd (drv (rx_payload st))));
                 repeat 0 8%nat] /\
      at_index (firstn 8 (data (snd (drv (rx_payload st))))) 1 =
        at_index (data (snd (drv (rx_payload st)))) 1 /\
      at_index (repeat 0 8%nat) 1 = 0)).
Proof.
  intros Hbuf.
  assert (Hsz : (8 <= List.length (data (snd (drv (rx_payload st)))))%nat).
  { rewrite Hbuf. unfold CONFIG_ESB_MAX_PAYLOAD_LENGTH. lia. }
  destruct (evt_id event) eqn:Hev.
  1, 2: exists []; unfold receiver_esb_event_handler; rewrite Hev; frame;
        rewrite app_nil_r; auto.
  rewrite handler_rx_unfold by exact Hev.
  destruct (fst (drv (rx_payload st)) =? 0).
  - rewrite rx_received_body_hid_ep.
    cbn [set_rx_payload rx_payload hid_dev configured hid_ep].
    match goal with |- context [if ?c then _ else _] => destruct c end.
    + rewrite (memcpy_report _ Hsz), firstn_firstn. cbn [Nat.min].
      eexists. split; [reflexivity|]. split.
      * repeat constructor. now apply firstn_8_length.
      * right. split; [reflexivity|]. split; [|reflexivity].
        apply at_index_firstn. lia.
    + exists []. auto.
  - exists []. cbn [set_rx_payload hid_ep]. rewrite app_nil_r. auto.
Qed.

Lemma emitted_reports_shape_witness :
  payload_buffer_ok (payload_of 8 [0; 5; 4; 0; 0; 0; 0; 0]) /\
  exists emitted,
    hid_ep (receiver_esb_event_handler
              (driver_gives (payload_of 8 [0; 5; 4; 0; 0; 0; 0; 0]))
              rx_event ready_state) = emitted /\
    Forall (fun r => List.length r = 8%nat) emitted /\
    (emitted = [] \/
     (emitted = [[0; 5; 4; 0; 0; 0; 0; 0]; [0; 0; 0; 0; 0; 0; 0; 0]] /\
      at_index [0; 5; 4; 0; 0; 0; 0; 0] 1 = 5 /\
      at_index [0; 0; 0; 0; 0; 0; 0; 0] 1 = 0)).
Proof.
  split; [reflexivity|].
  apply (emitted_reports_shape
           (driver_gives (payload_of 8 [0; 5; 4; 0; 0; 0; 0; 0]))
           rx_event ready_state).
  reflexivity.
Defined.

(** C5 as stated fails: a forwarded payload whose byte 1 is 5 gives a live
    report whose byte 1 is 5. *)
Lemma reserved_byte_forwarded_unchecked :
  ~ Forall (fun r => List.length r = 8%nat /\ at_index r 1 = 0)
      (hid_ep (receiver_esb_event_handler
                 (driver_gives (payload_of 8 [0; 5; 4; 0; 0; 0; 0; 0]))
                 rx_event ready_state)).
Proof.
  intros Hall. apply Forall_inv in Hall. destruct Hall as [_ Hbyte].
  discriminate Hbyte.
Qed.

(** ** Further facts about the two callbacks *)

Lemma k_sem_give_frame (st : state) :
  rx_payload (k_sem_give_usb_configured_sem st) = rx_payload st /\
  hid_dev (k_sem_give_usb_configured_sem st) = hid_dev st /\
  hid_ep (k_sem_give_usb_configured_sem st) = hid_ep st /\
  log (k_sem_give_usb_configured_sem st) = log st.
Proof.
  unfold k_sem_give_usb_configured_sem.
  destruct (usb_configured_sem st <? 1); simpl; tauto.
Qed.

Lemma emit_usb_configured_sem r st :
  usb_configured_sem (emit r st) = usb_configured_sem st.
Proof. apply emit_frame. Qed.

Lemma usb_status_cb_frame (status : usb_dc_status_code) (st : state) :
  rx_payload (usb_status_cb status st) = rx_payload st /\
  hid_dev (usb_status_cb status st) = hid_dev st /\
  hid_ep (usb_status_cb status st) = hid_ep st.
Proof.
  unfold usb_status_cb, and_then, LOG_DBG, LOG_INF, emit,
    k_sem_give_usb_configured_sem.
  destruct status; simpl; auto.
  destruct (usb_configured_sem st <? 1); simpl; auto.
Qed.

Lemma usb_status_cb_log (status : usb_dc_status_code) (st : state) :
  log (usb_status_cb status st) =
  log st ++
  match status with
  | USB_DC_CONFIGURED =>
      [LogMsg LOG_LEVEL_INF
         "USB_DC_CONFIGURED received, setting configured = true" []]
  | USB_DC_DISCONNECTED =>
      [LogMsg LOG_LEVEL_INF
         "USB_DC_DISCONNECTED received, setting configured = false" []]
  | USB_DC_RESET =>
      [LogMsg LOG_LEVEL_INF
         "USB_DC_RESET received, setting configured = false" []]
  | USB_DC_SUSPEND => [LogMsg LOG_LEVEL_INF "USB_DC_SUSPEND received" []]
  | USB_DC_RESUME => [LogMsg LOG_LEVEL_INF "USB_DC_RESUME received" []]
  | _ => []
  end.
Proof.
  unfold usb_status_cb, and_then, LOG_DBG, LOG_INF, emit,
    k_sem_give_usb_configured_sem.
  destruct status; simpl; rewrite ?app_nil_r; try reflexivity.
  destruct (usb_configured_sem st <? 1); reflexivity.
Qed.

Lemma usb_status_cb_sem (status : usb_dc_status_code) (st : state) :
  usb_configured_sem (usb_status_cb status st) =
  match status with
  | USB_DC_CONFIGURED =>
      if usb_configured_sem st <? 1 then usb_configured_sem st + 1
      else usb_configured_sem st
  | _ => usb_configured_sem st
  end.
Proof.
  unfold usb_status_cb, and_then, LOG_DBG, LOG_INF, emit,
    k_sem_give_usb_configured_sem.
  destruct status; simpl; try reflexivity.
  destruct (usb_configured_sem st <? 1); reflexivity.
Qed.

Lemma usb_status_cb_flag (status : usb_dc_status_code) (st : state) :
  configured (usb_status_cb status st) =
  if assigns_configured (UsbStatus status)
  then is_configured_event (UsbStatus status)
  else configured st.
Proof.
  unfold usb_status_cb. destruct status; frame; reflexivity.
Qed.

Section HandlerFacts.

Variable drv : esb_payload -> Z * esb_payload.

Lemma handler_tx (event : esb_evt) (st : state) :
  evt_id event <> ESB_EVENT_RX_RECEIVED ->
  rx_payload (receiver_esb_event_handler drv event st) = rx_payload st /\
  hid_ep (receiver_esb_event_handler drv event st) = hid_ep st /\
  log (receiver_esb_event_handler drv event st) =
    log st ++
    [match evt_id event with
     | ESB_EVENT_TX_FAILED =>
         LogMsg LOG_LEVEL_ERR "TX failed (unexpected in PRX mode)" []
     | _ => LogMsg LOG_LEVEL_INF "TX success (unexpected in PRX mode)" []
     end].
Proof.
  intros Hev. unfold receiver_esb_event_handler.
  destruct (evt_id event); [| |congruence]; frame; auto.
Qed.

Lemma rx_received_body_frame (st : state) :
  rx_payload (rx_received_body st) = rx_payload st /\
  hid_dev (rx_received_body st) = hid_dev st /\
  usb_configured_sem (rx_received_body st) = usb_configured_sem st.
Proof.
  unfold rx_received_body. frame.
  destruct (length (rx_payload st) =? 8); frame; [|auto].
  destruct (is_non_null (hid_dev st) && configured st); frame; [auto|].
  destruct (length (rx_payload st) =? 2); frame; auto.
Qed.

Lemma handler_flag (event : esb_evt) (st : state) :
  configured (receiver_esb_event_handler drv event st) = configured st.
Proof.
  destruct (evt_id event) eqn:Hev.
  1, 2: unfold receiver_esb_event_handler; rewrite Hev; frame; reflexivity.
  rewrite handler_rx_unfold by exact Hev.
  destruct (fst (drv (rx_payload st)) =? 0); [|reflexivity].
  now rewrite rx_received_body_configured.
Qed.

Lemma handler_hid_dev_sem (event : esb_evt) (st : state) :
  hid_dev (receiver_esb_event_handler drv event st) = hid_dev st /\
  usb_configured_sem (receiver_esb_event_handler drv event st) =
  usb_configured_sem st.
Proof.
  destruct (evt_id event) eqn:Hev.
  1, 2: unfold receiver_esb_event_handler; rewrite Hev;
        unfold LOG_INF, LOG_ERR;
        rewrite emit_hid_dev, emit_usb_configured_sem; auto.
  rewrite handler_rx_unfold by exact Hev.
  destruct (fst (drv (rx_payload st)) =? 0); [|auto].
  destruct (rx_received_body_frame
              (set_rx_payload (snd (drv (rx_payload st))) st))
    as (_ & -> & ->). auto.
Qed.

(** The reports one invocation adds, as a function of what it finds. *)
Lemma handler_hid_ep (event : esb_evt) (st : state) :
  hid_ep (receiver_esb_event_handler drv event st) =
  hid_ep st ++
  match evt_id event with
  | ESB_EVENT_RX_RECEIVED =>
      if (fst (drv (rx_payload st)) =? 0) &&
         ((length (snd (drv (rx_payload st))) =? 8) &&
          (is_non_null (hid_dev st) && configured st))
      then [firstn 8 (memcpy (repeat 0 8%nat)
                        (data (snd (drv (rx_payload st)))) 8);
            repeat 0 8%nat]
      else []
  | _ => []
  end.
Proof.
  destruct (evt_id event) eqn:Hev.
  1, 2: assert (Hne : evt_id event <> ESB_EVENT_RX_RECEIVED) by congruence;
        destruct (handler_tx event st Hne) as (_ & -> & _);
        now rewrite app_nil_r.
  rewrite handler_rx_unfold by exact Hev.
  destruct (fst (drv (rx_payload st)) =? 0).
  - rewrite rx_received_body_hid_ep. reflexivity.
  - cbn [andb set_rx_payload hid_ep]. now rewrite app_nil_r.
Qed.

(** The log records one invocation adds, as a function of what it finds. *)
Lemma handler_log (event : esb_evt) (st : state) :
  log (receiver_esb_event_handler drv event st) =
  log st ++
  match evt_id event with
  | ESB_EVENT_TX_SUCCESS =>
      [LogMsg LOG_LEVEL_INF "TX success (unexpected in PRX mode)" []]
  | ESB_EVENT_TX_FAILED =>
      [LogMsg LOG_LEVEL_ERR "TX failed (unexpected in PRX mode)" []]
  | ESB_EVENT_RX_RECEIVED =>
      if fst (drv (rx_payload st)) =? 0 then
        rx_common_log (snd (drv (rx_payload st))) ++
        (if length (snd (drv (rx_payload st))) =? 8 then
           LogMsg LOG_LEVEL_INF "Processing HID report (8 bytes)" [] ::
           (if is_non_null (hid_dev st) && configured st then []
            else [ LogMsg LOG_LEVEL_WRN "Unexpected payload length: %d" [8];
                   LogHexdump LOG_LEVEL_INF
                     (firstn 8 (data (snd (drv (rx_payload st)))))
                     "Unexpected Payload" ])
         else [ LogMsg LOG_LEVEL_ERR "Failed to read RX payload" [] ])
      else []
  end.
Proof.
  destruct (evt_id event) eqn:Hev.
  1, 2: assert (Hne : evt_id event <> ESB_EVENT_RX_RECEIVED) by congruence;
        destruct (handler_tx event st Hne) as (_ & _ & ->);
        now rewrite Hev.
  rewrite handler_rx_unfold by exact Hev.
  destruct (fst (drv (rx_payload st)) =? 0).
  - rewrite rx_received_body_log. reflexivity.
  - cbn [set_rx_payload log]. now rewrite app_nil_r.
Qed.

End HandlerFacts.

(** ** usb_status_cb beyond the flag *)

(** X1.  For a status code outside the five that the switch names, the
    callback leaves every static and both sinks exactly as they were: the
    two log calls on that path are debug calls, below the module's level. *)
Theorem unhandled_status_changes_nothing
    (status : usb_dc_status_code) (st : state) :
  In status [USB_DC_ERROR; USB_DC_CONNECTED; USB_DC_INTERFACE;
             USB_DC_SET_HALT; USB_DC_CLEAR_HALT; USB_DC_SOF;
             USB_DC_UNKNOWN] ->
  usb_status_cb status st = st.
Proof.
  intros Hin. destruct st as [p d s c o l].
  simpl in Hin.
  repeat (destruct Hin as [<- | Hin]; [reflexivity|]).
  contradiction.
Qed.

Lemma unhandled_status_changes_nothing_witness :
  usb_status_cb USB_DC_CONNECTED ready_state = ready_state.
Proof.
  apply (unhandled_status_changes_nothing USB_DC_CONNECTED ready_state).
  simpl. auto.
Defined.

(** X2.  Whatever the status code, the callback writes nothing on the HID
    endpoint, leaves [rx_payload] and [hid_dev] alone, and adds at most one
    log record, which is at info level. *)
Theorem usb_status_cb_touches_only_flag_sem_log
    (status : usb_dc_status_code) (st : state) :
  hid_ep (usb_status_cb status st) = hid_ep st /\
  rx_payload (usb_status_cb status st) = rx_payload st /\
  hid_dev (usb_status_cb status st) = hid_dev st /\
  exists added,
    log (usb_status_cb status st) = log st ++ added /\
    (List.length added <= 1)%nat /\
    Forall (fun r => log_record_level r = LOG_LEVEL_INF) added.
Proof.
  destruct (usb_status_cb_frame status st) as (Hp & Hd & Ho).
  repeat split; try assumption.
  rewrite usb_status_cb_log. eexists. split; [reflexivity|].
  destruct status; simpl; split; auto.
Qed.

(** ** receiver_esb_event_handler beyond the claims *)

(** X3.  One invocation changes the HID endpoint if and only if the event is
    a reception, the read returned 0, the length is 8, [hid_dev] is non-null
    and [configured] is set; in every other case the endpoint is left as it
    was. *)
Theorem handler_writes_iff
    (drv : esb_payload -> Z * esb_payload) (event : esb_evt) (st : state) :
  hid_ep (receiver_esb_event_handler drv event st) <> hid_ep st <->
  (evt_id event = ESB_EVENT_RX_RECEIVED /\
   fst (drv (rx_payload st)) = 0 /\
   length (snd (drv (rx_payload st))) = 8 /\
   hid_dev st <> None /\
   configured st = true).
Proof.
  rewrite handler_hid_ep.
  assert (Hgrow : forall (o : list (list Z)) a b, o ++ [a; b] <> o).
  { intros o a b Heq. apply (f_equal (@List.length _)) in Heq.
    rewrite length_app in Heq. simpl in Heq. lia. }
  destruct (evt_id event).
  1, 2: rewrite app_nil_r; split; [congruence | intros [Hev _]; discriminate].
  destruct (Z.eqb_spec (fst (drv (rx_payload st))) 0) as [Hrc|Hrc];
  destruct (Z.eqb_spec (length (snd (drv (rx_payload st)))) 8) as [Hlen|Hlen];
  destruct (hid_dev st) as [name|] eqn:Hdev;
  destruct (configured st) eqn:Hcfg; cbn [andb is_non_null];
  rewrite ?app_nil_r;
  (split; [intros Hne | intros (_ & H1 & H2 & H3 & H4)]);
  try congruence; try (repeat split; congruence); try apply Hgrow.
Qed.

(** X4.  No invocation changes [hid_dev] or the semaphore, and an event
    other than a reception does not change [rx_payload] either. *)
Theorem handler_leaves_device_and_sem
    (drv : esb_payload -> Z * esb_payload) (event : esb_evt) (st : state) :
  hid_dev (receiver_esb_event_handler drv event st) = hid_dev st /\
  usb_configured_sem (receiver_esb_event_handler drv event st) =
    usb_configured_sem st /\
  match evt_id event with
  | ESB_EVENT_RX_RECEIVED => True
  | _ => rx_payload (receiver_esb_event_handler drv event st) = rx_payload st
  end.
Proof.
  destruct (handler_hid_dev_sem drv event st) as [Hd Hs].
  repeat split; try assumption.
  destruct (evt_id event) eqn:Hev; [| |exact I];
    apply (handler_tx drv event st); congruence.
Qed.

(** X5.  The record "Received test payload (2 bytes)" is never logged: for
    no event, driver answer and state does an invocation add a message with
    that format to the log. *)
Theorem test_payload_record_never_logged
    (drv : esb_payload -> Z * esb_payload) (event : esb_evt) (st : state) :
  exists added,
    log (receiver_esb_event_handler drv event st) = log st ++ added /\
    forall level args,
      ~ In (LogMsg level
              "Received test payload (2 bytes): D+ = %d, D- = %d" args) added.
Proof.
  rewrite handler_log. eexists. split; [reflexivity|].
  intros level args.
  destruct (evt_id event);
  try destruct (fst (drv (rx_payload st)) =? 0);
  try destruct (length (snd (drv (rx_payload st))) =? 8);
  try destruct (is_non_null (hid_dev st) && configured st);
  simpl; intuition discriminate.
Qed.

(** X6.  On a reception the error "Failed to read RX payload" is logged if
    and only if the read returned 0 and the length is not 8: never when the
    read failed, always for a good payload of any other length. *)
Theorem read_failure_error_iff
    (drv : esb_payload -> Z * esb_payload) (event : esb_evt) (st : state) :
  exists added,
    log (receiver_esb_event_handler drv event st) = log st ++ added /\
    (In (LogMsg LOG_LEVEL_ERR "Failed to read RX payload" []) added <->
     evt_id event = ESB_EVENT_RX_RECEIVED /\
     fst (drv (rx_payload st)) = 0 /\
     length (snd (drv (rx_payload st))) <> 8).
Proof.
  rewrite handler_log. eexists. split; [reflexivity|].
  destruct (evt_id event).
  1, 2: simpl; split; [intros [H|[]]; discriminate H | intros [H _]; discriminate H].
  destruct (fst (drv (rx_payload st)) =? 0) eqn:Hrc;
    [apply Z.eqb_eq in Hrc | apply Z.eqb_neq in Hrc].
  2: { simpl. split; [contradiction | intros (_ & H & _); contradiction]. }
  destruct (length (snd (drv (rx_payload st))) =? 8) eqn:Hlen;
    [apply Z.eqb_eq in Hlen | apply Z.eqb_neq in Hlen].
  - destruct (is_non_null (hid_dev st) && configured st); simpl;
      (split; [intuition discriminate | intros (_ & _ & H); contradiction]).
  - simpl. split; auto.
Qed.

(** X7.  The warning "Unexpected payload length" is logged if and only if a
    payload of length 8 was read while [hid_dev] is null or [configured] is
    false, and the length it reports is then 8; payloads of other lengths
    never produce it. *)
Theorem unexpected_length_warning_iff
    (drv : esb_payload -> Z * esb_payload) (event : esb_evt) (st : state)
    (n : Z) :
  exists added,
    log (receiver_esb_event_handler drv event st) = log st ++ added /\
    (In (LogMsg LOG_LEVEL_WRN "Unexpected payload length: %d" [n]) added <->
     n = 8 /\
     evt_id event = ESB_EVENT_RX_RECEIVED /\
     fst (drv (rx_payload st)) = 0 /\
     length (snd (drv (rx_payload st))) = 8 /\
     is_non_null (hid_dev st) && configured st = false).
Proof.
  rewrite handler_log. eexists. split; [reflexivity|].
  destruct (evt_id event).
  1, 2: simpl; split; [intros [H|[]]; discriminate H
                      | intros (_ & H & _); discriminate H].
  destruct (fst (drv (rx_payload st)) =? 0) eqn:Hrc;
    [apply Z.eqb_eq in Hrc | apply Z.eqb_neq in Hrc].
  2: { simpl. split; [contradiction | intros (_ & _ & H & _); contradiction]. }
  destruct (length (snd (drv (rx_payload st))) =? 8) eqn:Hlen;
    [apply Z.eqb_eq in Hlen | apply Z.eqb_neq in Hlen].
  - destruct (is_non_null (hid_dev st) && configured st); simpl.
    + split; [intuition discriminate | intros (_ & _ & _ & _ & H); discriminate H].
    + split.
      * intros [H|[H|[H|[H|[H|[H|[]]]]]]]; try discriminate H.
        injection H as <-. auto.
      * intros (-> & _). auto 6.
  - simpl. split; [intuition discriminate | intros (_ & _ & _ & H & _); contradiction].
Qed.

(** ** Sequences of callbacks *)

Lemma run_cons (c : callback) (cs : list callback) (st : state) :
  run (c :: cs) st = run cs (deliver c st).
Proof. reflexivity. Qed.

Lemma run_app (cs ds : list callback) (st : state) :
  run (cs ++ ds) st = run ds (run cs st).
Proof. unfold run. apply fold_left_app. Qed.

Lemma deliver_flag (c : callback) (st : state) :
  configured (deliver c st) =
  if assigns_configured c then is_configured_event c else configured st.
Proof.
  destruct c as [status | drv event]; simpl deliver.
  - apply usb_status_cb_flag.
  - apply handler_flag.
Qed.

Lemma deliver_hid_ep_closed (c : callback) (st : state) :
  configured st = false ->
  hid_ep (deliver c st) = hid_ep st.
Proof.
  intros Hcfg. destruct c as [status | drv event]; simpl deliver.
  - apply usb_status_cb_frame.
  - rewrite handler_hid_ep, Hcfg, !andb_false_r.
    destruct (evt_id event); apply app_nil_r.
Qed.

Lemma deliver_hid_ep_pairs (c : callback) (st : state) :
  exists lives, hid_ep (deliver c st) = hid_ep st ++ report_pairs lives.
Proof.
  destruct c as [status | drv event]; simpl deliver.
  - exists []. destruct (usb_status_cb_frame status st) as (_ & _ & ->).
    simpl. now rewrite app_nil_r.
  - rewrite handler_hid_ep.
    destruct (evt_id event); try (exists []; reflexivity).
    match goal with |- context [if ?g then _ else _] => destruct g end.
    + eexists [_]. reflexivity.
    + exists []. reflexivity.
Qed.

Lemma report_pairs_app (xs ys : list (list Z)) :
  report_pairs (xs ++ ys) = report_pairs xs ++ report_pairs ys.
Proof. unfold report_pairs. apply flat_map_app. Qed.

Lemma deliver_sem (c : callback) (st : state) :
  0 <= usb_configured_sem st <= 1 ->
  usb_configured_sem st <= usb_configured_sem (deliver c st) <= 1 /\
  (is_configured_event c = true -> usb_configured_sem (deliver c st) = 1).
Proof.
  intros Hrange. destruct c as [status | drv event]; simpl deliver.
  - rewrite usb_status_cb_sem.
    destruct status; simpl; try (split; [lia | discriminate]).
    destruct (usb_configured_sem st <? 1) eqn:Hlt;
      [apply Z.ltb_lt in Hlt | apply Z.ltb_ge in Hlt]; split; intros; lia.
  - destruct (handler_hid_dev_sem drv event st) as [_ ->].
    split; [lia | discriminate].
Qed.

(** X8.  Over any sequence of callbacks the HID endpoint only ever receives
    whole pairs: if what it held was a sequence of (live report, all-zero
    release report) pairs, what it holds afterwards is that sequence followed
    by more such pairs; nothing is removed and no live report is left
    without its release. *)
Theorem endpoint_receives_whole_pairs
    (cs : list callback) (st : state) (lives : list (list Z)) :
  hid_ep st = report_pairs lives ->
  exists more, hid_ep (run cs st) = report_pairs (lives ++ more).
Proof.
  revert st lives. induction cs as [|c cs IH]; intros st lives Hst.
  - exists []. now rewrite app_nil_r.
  - rewrite run_cons.
    destruct (deliver_hid_ep_pairs c st) as [one Hone].
    destruct (IH (deliver c st) (lives ++ one)) as [more Hmore].
    + now rewrite Hone, Hst, report_pairs_app.
    + exists (one ++ more). now rewrite app_assoc.
Qed.

Lemma endpoint_receives_whole_pairs_witness :
  exists more,
    hid_ep (run [EsbEvent (driver_gives (payload_of 8 [0; 0; 4; 0; 0; 0; 0; 0]))
                   rx_event;
                 UsbStatus USB_DC_SUSPEND;
                 EsbEvent (driver_gives (payload_of 2 [1; 1])) rx_event]
              ready_state) = report_pairs ([] ++ more).
Proof.
  apply (endpoint_receives_whole_pairs _ ready_state []). reflexivity.
Defined.

(** X9.  Once [configured] is false, no sequence of callbacks without a
    USB_DC_CONFIGURED event writes anything on the HID endpoint, and
    [configured] is still false at its end. *)
Theorem nothing_forwarded_until_configured
    (cs : list callback) (st : state) :
  configured st = false ->
  Forall (fun c => is_configured_event c = false) cs ->
  hid_ep (run cs st) = hid_ep st /\ configured (run cs st) = false.
Proof.
  revert st. induction cs as [|c cs IH]; intros st Hcfg Hcs.
  - auto.
  - apply Forall_cons_iff in Hcs. destruct Hcs as [Hc Hcs].
    rewrite run_cons.
    assert (Hcfg' : configured (deliver c st) = false).
    { rewrite deliver_flag, Hc, Hcfg. now destruct (assigns_configured c). }
    destruct (IH (deliver c st) Hcfg' Hcs) as [Hep Hflag].
    split; [|exact Hflag].
    rewrite Hep. now apply deliver_hid_ep_closed.
Qed.

Lemma nothing_forwarded_until_configured_witness :
  hid_ep (run [UsbStatus USB_DC_RESUME;
               EsbEvent (driver_gives (payload_of 8 [0; 0; 4; 0; 0; 0; 0; 0]))
                 rx_event]
            (usb_status_cb USB_DC_RESET ready_state)) = [] /\
  configured
    (run [UsbStatus USB_DC_RESUME;
          EsbEvent (driver_gives (payload_of 8 [0; 0; 4; 0; 0; 0; 0; 0]))
            rx_event]
       (usb_status_cb USB_DC_RESET ready_state)) = false.
Proof.
  apply (nothing_forwarded_until_configured _
           (usb_status_cb USB_DC_RESET ready_state)).
  - reflexivity.
  - repeat constructor.
Defined.

(** X10.  After any sequence of callbacks, [configured] is what the last
    USB_DC_CONFIGURED, USB_DC_DISCONNECTED or USB_DC_RESET event made it:
    true for the first, false for the other two, whatever came before it and
    whatever radio events and other status codes came after it. *)
Theorem flag_follows_last_assigning_event
    (before after : list callback) (status : usb_dc_status_code)
    (st : state) :
  assigns_configured (UsbStatus status) = true ->
  Forall (fun c => assigns_configured c = false) after ->
  configured (run (before ++ UsbStatus status :: after) st) =
  is_configured_event (UsbStatus status).
Proof.
  intros Hassign Hafter. rewrite run_app, run_cons.
  assert (Hkeep : forall s, configured (run after s) = configured s).
  { induction after as [|c cs IH]; intros s; [reflexivity|].
    apply Forall_cons_iff in Hafter. destruct Hafter as [Hc Hcs].
    rewrite run_cons, (IH Hcs), deliver_flag, Hc. reflexivity. }
  rewrite Hkeep, deliver_flag, Hassign. reflexivity.
Qed.

Lemma flag_follows_last_assigning_event_witness :
  configured
    (run ([UsbStatus USB_DC_CONFIGURED] ++
          UsbStatus USB_DC_DISCONNECTED ::
          [UsbStatus USB_DC_SUSPEND;
           EsbEvent driver_no_data rx_event;
           UsbStatus USB_DC_RESUME]) boot_state) = false.
Proof.
  apply (flag_follows_last_assigning_event
           [UsbStatus USB_DC_CONFIGURED] _ USB_DC_DISCONNECTED boot_state).
  - reflexivity.
  - repeat constructor.
Defined.

(** X11.  Nothing ever takes [usb_configured_sem]: over any sequence of
    callbacks started with a count of 0 or 1 the count never decreases and
    never exceeds 1, and it is 1 as soon as the sequence holds a
    USB_DC_CONFIGURED event. *)
Theorem semaphore_given_never_taken (cs : list callback) (st : state) :
  0 <= usb_configured_sem st <= 1 ->
  usb_configured_sem st <= usb_configured_sem (run cs st) <= 1 /\
  (existsb is_configured_event cs = true ->
   usb_configured_sem (run cs st) = 1).
Proof.
  revert st. induction cs as [|c cs IH]; intros st Hrange.
  - simpl. split; [lia | discriminate].
  - rewrite run_cons.
    destruct (deliver_sem c st Hrange) as [Hstep Hone].
    destruct (IH (deliver c st)) as [Hrest Hex]; [lia|].
    split; [lia|].
    simpl existsb. intros Hany. apply orb_true_iff in Hany.
    destruct Hany as [Hc | Hcs]; [|now apply Hex].
    specialize (Hone Hc). lia.
Qed.

Lemma semaphore_given_never_taken_witness :
  usb_configured_sem
    (run [UsbStatus USB_DC_CONFIGURED; UsbStatus USB_DC_DISCONNECTED;
          UsbStatus USB_DC_CONFIGURED] boot_state) = 1.
Proof.
  apply (semaphore_given_never_taken
           [UsbStatus USB_DC_CONFIGURED; UsbStatus USB_DC_DISCONNECTED;
            UsbStatus USB_DC_CONFIGURED] boot_state).
  - simpl. lia.
  - reflexivity.
Defined.

(** ** main *)

Ltac main_simpl := cbn -[Z.eqb hid_report_desc app].

Ltac walk_radio pf fin :=
  destruct (esb_init pf _ =? 0) eqn:?Hesb; main_simpl;
  [ destruct (esb_set_base_address_0 pf _ =? 0) eqn:?Hbase; main_simpl;
    [ destruct (esb_set_prefixes pf _ _ =? 0) eqn:?Hpre; main_simpl;
      [ destruct (esb_start_rx pf =? 0) eqn:?Hrx; main_simpl; fin
      | fin ]
    | fin ]
  | fin ].

Ltac main_walk pf fin :=
  unfold main, main_body, then_proc, when, check_err, info, step, ret;
  main_simpl;
  destruct (device_get_binding pf "HID_0") as [?name|] eqn:?Hdev; main_simpl;
  [ destruct (device_is_ready pf (Some _)) eqn:?Hready; main_simpl;
    [ destruct (usb_hid_init pf (Some _) =? 0) eqn:?Hhid; main_simpl;
      [ destruct (CONFIG_USB_DEVICE_STACK pf) eqn:?Hstack; main_simpl;
        [ destruct (usb_enable pf =? 0) eqn:?Husb; main_simpl;
          [ walk_radio pf fin | fin ]
        | walk_radio pf fin ]
      | fin ]
    | fin ]
  | fin ].

(** ** main *)

Lemma main_outcome_cases (pf : platform) (b : board) :
  fst (main pf b) =
  if is_non_null (device_get_binding pf "HID_0")
     && device_is_ready pf (device_get_binding pf "HID_0")
     && (usb_hid_init pf (device_get_binding pf "HID_0") =? 0)
     && (negb (CONFIG_USB_DEVICE_STACK pf) || (usb_enable pf =? 0))
     && (esb_init pf (mk_esb_config ESB_PROTOCOL_ESB_DPL ESB_MODE_PRX
               fn_receiver_esb_event_handler ESB_BITRATE_2MBPS 8 3) =? 0)
     && (esb_set_base_address_0 pf [0xAB; 0x12; 0xCD; 0x34] =? 0)
     && (esb_set_prefixes pf
           [0xA1; 0xA2; 0xA3; 0xA4; 0xA5; 0xA6; 0xA7; 0xA8] 8 =? 0)
     && (esb_start_rx pf =? 0)
  then IdleLoop else Returned 0.
Proof.
  main_walk pf reflexivity.
Qed.

Lemma main_statics_frame (pf : platform) (b : board) :
  rx_payload (statics (snd (main pf b))) = rx_payload (statics b) /\
  usb_configured_sem (statics (snd (main pf b))) =
    usb_configured_sem (statics b) /\
  configured (statics (snd (main pf b))) = configured (statics b) /\
  hid_ep (statics (snd (main pf b))) = hid_ep (statics b) /\
  hid_dev (statics (snd (main pf b))) = device_get_binding pf "HID_0".
Proof.
  main_walk pf ltac:(repeat split; reflexivity).
Qed.


Ltac split_last :=
  match goal with
  | |- exists earlier e, ?l = earlier ++ [e] /\ _ =>
      exists (removelast l), (last l (LogMsg 0 "" []))
  end.

(** X13.  On every path [main] only adds to the log.  When it returns, it
    returns 0 (never an error code) and the last record it logged is its
    only one at error level; when it reaches the idle loop, every record it
    logged is at info level. *)
Theorem main_logs_one_error_and_returns_zero (pf : platform) (b : board) :
  exists added,
    log (statics (snd (main pf b))) = log (statics b) ++ added /\
    match fst (main pf b) with
    | IdleLoop => Forall (fun r => log_record_level r = LOG_LEVEL_INF) added
    | Returned rc =>
        rc = 0 /\
        exists earlier e,
          added = earlier ++ [e] /\
          Forall (fun r => log_record_level r = LOG_LEVEL_INF) earlier /\
          log_record_level e = LOG_LEVEL_ERR
    end.
Proof.
  main_walk pf ltac:(idtac).
  all: rewrite <- ?app_assoc; eexists; (split; [reflexivity|]); cbn [app].
  all: try (split; [reflexivity|]; split_last; cbn;
            split; [reflexivity|]; split; [|reflexivity]).
  all: repeat constructor.
Qed.

(** X12.  [main] reaches its idle loop if and only if "HID_0" is bound and
    ready, [usb_hid_init] returns 0, [usb_enable] returns 0 when the USB
    device stack is configured in, and [esb_init] (called with the PRX
    configuration), [esb_set_base_address_0], [esb_set_prefixes] and
    [esb_start_rx] all return 0. *)
Theorem main_idle_iff (pf : platform) (b : board) :
  fst (main pf b) = IdleLoop <->
  (device_get_binding pf "HID_0" <> None /\
   device_is_ready pf (device_get_binding pf "HID_0") = true /\
   usb_hid_init pf (device_get_binding pf "HID_0") = 0 /\
   (CONFIG_USB_DEVICE_STACK pf = true -> usb_enable pf = 0) /\
   esb_init pf (mk_esb_config ESB_PROTOCOL_ESB_DPL ESB_MODE_PRX
                  fn_receiver_esb_event_handler ESB_BITRATE_2MBPS 8 3) = 0 /\
   esb_set_base_address_0 pf [0xAB; 0x12; 0xCD; 0x34] = 0 /\
   esb_set_prefixes pf [0xA1; 0xA2; 0xA3; 0xA4; 0xA5; 0xA6; 0xA7; 0xA8] 8
     = 0 /\
   esb_start_rx pf = 0).
Proof.
  rewrite main_outcome_cases.
  destruct (device_get_binding pf "HID_0") as [name|] eqn:Hdev.
  2: { simpl. split; [discriminate | intros [H _]; now elim H]. }
  cbn [is_non_null andb].
  rewrite <- !Z.eqb_eq.
  destruct (device_is_ready pf (Some name));
    [|simpl; split; [discriminate | intros (_ & H & _); discriminate H]].
  destruct (usb_hid_init pf (Some name) =? 0);
    [|simpl; split; [discriminate | intros (_ & _ & H & _); discriminate H]].
  destruct (esb_init pf _ =? 0);
    [|rewrite !andb_false_r; simpl; split;
      [discriminate | intros (_ & _ & _ & _ & H & _); discriminate H]].
  destruct (esb_set_base_address_0 pf _ =? 0);
    [|rewrite !andb_false_r; simpl; split;
      [discriminate | intros (_ & _ & _ & _ & _ & H & _); discriminate H]].
  destruct (esb_set_prefixes pf _ _ =? 0);
    [|rewrite !andb_false_r; simpl; split;
      [discriminate | intros (_ & _ & _ & _ & _ & _ & H & _); discriminate H]].
  destruct (esb_start_rx pf =? 0);
    [|rewrite !andb_false_r; simpl; split;
      [discriminate | intros (_ & _ & _ & _ & _ & _ & _ & H); discriminate H]].
  rewrite !andb_true_r. cbn [andb].
  destruct (CONFIG_USB_DEVICE_STACK pf); cbn [negb orb].
  - destruct (usb_enable pf =? 0).
    + split; [intros _|reflexivity]. repeat split; auto; discriminate.
    + split; [discriminate|]. intros (_ & _ & _ & H & _).
      specialize (H eq_refl). discriminate H.
  - split; [intros _|reflexivity]. repeat split; auto; discriminate.
Qed.

(** X14.  [main] only adds to the SDK calls made, and wherever among them
    it calls [esb_init], the argument is the DPL/PRX/2 Mbit/s configuration
    that names [receiver_esb_event_handler], which is then the value of
    [esb_config], and the calls made before that one already include
    [usb_hid_register_device] and [usb_hid_init] on the bound "HID_0", with
    [usb_hid_init] having returned 0, and, where the USB stack is configured
    in, the registration of [usb_status_cb] followed by [usb_enable], with
    [usb_enable] having returned 0. *)
Theorem main_calls_esb_init_after_usb (pf : platform) (b : board) :
  exists made,
    sdk_calls (snd (main pf b)) = sdk_calls b ++ made /\
    forall earlier cfg later,
      made = earlier ++ Call_esb_init cfg :: later ->
      cfg = mk_esb_config ESB_PROTOCOL_ESB_DPL ESB_MODE_PRX
              fn_receiver_esb_event_handler ESB_BITRATE_2MBPS 8 3 /\
      esb_config (snd (main pf b)) = cfg /\
      hid_dev (statics (snd (main pf b))) <> None /\
      In (Call_usb_hid_register_device (device_get_binding pf "HID_0")
            hid_report_desc (List.length hid_report_desc)) earlier /\
      In (Call_usb_hid_init (device_get_binding pf "HID_0")) earlier /\
      usb_hid_init pf (device_get_binding pf "HID_0") = 0 /\
      (CONFIG_USB_DEVICE_STACK pf = true ->
       usb_enable pf = 0 /\
       exists first second third,
         earlier = first ++
                   Call_usb_dc_set_status_callback fn_usb_status_cb ::
                   second ++ Call_usb_enable :: third).
Proof.
  main_walk pf ltac:(idtac).
  all: rewrite <- ?app_assoc;
       first [ exists []; split; [now rewrite app_nil_r|]
             | eexists; split; [reflexivity|] ]; cbn [app].
  all: intros earlier cfg later Hmade.
  all: repeat (destruct earlier as [|? earlier]; cbn [app] in Hmade;
               [ try discriminate Hmade
               | first [ injection Hmade as <- Hmade
                       | discriminate Hmade ] ]).
  all: try discriminate Hmade.
  all: injection Hmade as <- <-.
  all: try apply Z.eqb_eq in Hhid; try apply Z.eqb_eq in Husb.
  all: split; [reflexivity|].
  all: split; [reflexivity|].
  all: split; [discriminate|].
  all: split; [cbn [In]; auto 10|].
  all: split; [cbn [In]; auto 10|].
  all: split; [assumption|].
  all: intros Hon; first [ discriminate Hon | split; [assumption|] ].
  all: eexists [_; _; _], [], [_]; reflexivity.
Qed.

(** X15.  Whatever the platform answers, [main] leaves [rx_payload], the
    semaphore, [configured] and the HID endpoint as they were and leaves in
    [hid_dev] what [device_get_binding] returned for "HID_0"; [esb_config]
    is either untouched or the PRX configuration. *)
Theorem main_assigns_only_hid_dev_and_esb_config
    (pf : platform) (b : board) :
  rx_payload (statics (snd (main pf b))) = rx_payload (statics b) /\
  usb_configured_sem (statics (snd (main pf b))) =
    usb_configured_sem (statics b) /\
  configured (statics (snd (main pf b))) = configured (statics b) /\
  hid_ep (statics (snd (main pf b))) = hid_ep (statics b) /\
  hid_dev (statics (snd (main pf b))) = device_get_binding pf "HID_0" /\
  (esb_config (snd (main pf b)) = esb_config b \/
   esb_config (snd (main pf b)) =
   mk_esb_config ESB_PROTOCOL_ESB_DPL ESB_MODE_PRX
     fn_receiver_esb_event_handler ESB_BITRATE_2MBPS 8 3).
Proof.
  destruct (main_statics_frame pf b) as (Hp & Hs & Hc & Ho & Hd).
  repeat (split; [assumption|]).
  clear. main_walk pf ltac:(auto).
Qed.

Lemma run_flag_kept (cs : list callback) (st : state) :
  Forall (fun c => assigns_configured c = false) cs ->
  configured (run cs st) = configured st.
Proof.
  revert st. induction cs as [|c cs IH]; intros st Hcs; [reflexivity|].
  apply Forall_cons_iff in Hcs. destruct Hcs as [Hc Hcs].
  rewrite run_cons, (IH _ Hcs), deliver_flag, Hc. reflexivity.
Qed.

Lemma run_hid_dev (cs : list callback) (st : state) :
  hid_dev (run cs st) = hid_dev st.
Proof.
  revert st. induction cs as [|c cs IH]; intros st; [reflexivity|].
  rewrite run_cons, IH. destruct c as [status | drv event]; simpl deliver.
  - apply usb_status_cb_frame.
  - apply handler_hid_dev_sem.
Qed.

(** X16.  If [main] reaches its idle loop from a board whose [configured]
    is true (as the initialiser leaves it), then after any sequence of
    callbacks that holds no USB_DC_CONFIGURED, USB_DC_DISCONNECTED or
    USB_DC_RESET event (the empty sequence included) the handler it
    registered forwards a successfully read payload of length 8: the live
    report and the release report are written although no USB_DC_CONFIGURED
    event was ever delivered. *)
Theorem first_report_forwarded_without_configured_event
    (pf : platform) (b : board) (history : list callback)
    (drv : esb_payload -> Z * esb_payload) (event : esb_evt)
    (p : esb_payload) :
  fst (main pf b) = IdleLoop ->
  configured (statics b) = true ->
  Forall (fun c => assigns_configured c = false) history ->
  evt_id event = ESB_EVENT_RX_RECEIVED ->
  drv (rx_payload (run history (statics (snd (main pf b))))) = (0, p) ->
  payload_buffer_ok p ->
  length p = 8 ->
  hid_ep (receiver_esb_event_handler drv event
            (run history (statics (snd (main pf b))))) =
  hid_ep (run history (statics (snd (main pf b)))) ++
  [firstn 8 (data p); repeat 0 8%nat].
Proof.
  intros Hidle Hcfg Hhist Hev Hrd Hbuf Hlen.
  destruct (main_statics_frame pf b) as (_ & _ & Hc & _ & Hd).
  rewrite main_outcome_cases in Hidle.
  destruct (is_non_null (device_get_binding pf "HID_0")) eqn:Hnn;
    [|discriminate Hidle].
  rewrite handler_hid_ep, Hev, Hrd.
  rewrite (run_flag_kept history _ Hhist), run_hid_dev, Hc, Hd, Hcfg, Hnn.
  cbn [fst snd]. rewrite Hlen. cbn [Z.eqb Pos.eqb andb].
  rewrite memcpy_report, firstn_firstn; [reflexivity|].
  rewrite Hbuf. unfold CONFIG_ESB_MAX_PAYLOAD_LENGTH. lia.
Qed.

Lemma first_report_forwarded_without_configured_event_witness :
  hid_ep (receiver_esb_event_handler
            (driver_gives (payload_of 8 [0; 0; 4; 0; 0; 0; 0; 0])) rx_event
            (run [UsbStatus USB_DC_CONNECTED; UsbStatus USB_DC_SUSPEND;
                  EsbEvent (driver_gives (payload_of 2 [1; 1])) rx_event;
                  UsbStatus USB_DC_RESUME]
               (statics (snd (main good_platform
                                (boot_board some_default_config)))))) =
  [[0; 0; 4; 0; 0; 0; 0; 0]; [0; 0; 0; 0; 0; 0; 0; 0]].
Proof.
  apply (first_report_forwarded_without_configured_event good_platform
           (boot_board some_default_config)
           [UsbStatus USB_DC_CONNECTED; UsbStatus USB_DC_SUSPEND;
            EsbEvent (driver_gives (payload_of 2 [1; 1])) rx_event;
            UsbStatus USB_DC_RESUME]
           (driver_gives (payload_of 8 [0; 0; 4; 0; 0; 0; 0; 0])) rx_event
           (payload_of 8 [0; 0; 4; 0; 0; 0; 0; 0]));
    first [reflexivity | repeat constructor].
Defined.
